(** * urql-wrapper: the query result classifier and the bounded retry wrapper

    A shallow embedding of [useAppQuery] (useQuery.ts) and [useRetryableQuery]
    (useRetryableQuery.ts), with the properties of the result classification,
    of the retry policy and of the deferred retry action.

    Conventions of the embedding:
    - a TypeScript optional field [x?: T] is an [option T] ([None] is
      [undefined]);
    - a JavaScript [number] that holds a count or a delay is an integer [Z];
    - a call that may throw returns a [Js.Completion];
    - a callback ([refetch], the deferred retry) is what it captured, together
      with what it does when it is invoked. *)

From Stdlib Require Import ZArith List String Bool Lia.
Import ListNotations.

Set Implicit Arguments.
Local Open Scope Z_scope.

(** ** JavaScript values, errors and completions *)
Module Js.

(** The classes of [Error] objects the hooks create or receive. *)
Inductive ErrorClass : Type :=
| ClsError            (* new Error(...), or any other Error a callback throws *)
| ClsCombinedError    (* urql's CombinedError, reported by the client *)
| ClsSelectorError    (* class SelectorError extends Error *)
| ClsNoDataError.     (* class NoDataError extends Error *)

(** An [Error] object: its class, its message and its [cause] property. *)
#[local] Unset Elimination Schemes.
Inductive Error : Type :=
| mkError (cls : ErrorClass) (message : string) (cause : option Error).
#[local] Set Elimination Schemes.

Definition cls (e : Error) : ErrorClass := let 'mkError c _ _ := e in c.
Definition message (e : Error) : string := let 'mkError _ m _ := e in m.
Definition cause (e : Error) : option Error := let 'mkError _ _ c := e in c.

(** [new Error(message)] *)
Definition new_Error (message : string) : Error := mkError ClsError message None.

(** What a [throw] statement can carry: any value, an [Error] or not. *)
Inductive Value : Type :=
| VUndefined
| VNull
| VBoolean (b : bool)
| VNumber (n : Z)
| VString (s : string)
| VError (e : Error).

(** [v instanceof Error], with the instance when the test succeeds. *)
Definition instanceof_Error (v : Value) : option Error :=
  match v with
  | VError e => Some e
  | _ => None
  end.

(** The outcome of evaluating a call: a value, or a thrown value. *)
Inductive Completion (A : Type) : Type :=
| Normal (a : A)
| Throw (thrown : Value).
Arguments Throw {A} thrown.

Definition bind {A B} (c : Completion A) (k : A -> Completion B) : Completion B :=
  match c with
  | Normal a => k a
  | Throw v => Throw v
  end.

(** [try { body } catch (error) { handler(error) }] *)
Definition try_catch {A} (body : Completion A) (handler : Value -> Completion A)
  : Completion A :=
  match body with
  | Normal a => Normal a
  | Throw v => handler v
  end.

(** Truthiness of an optional boolean: [undefined] and [false] are falsy. *)
Definition to_boolean (b : option bool) : bool :=
  match b with
  | Some b => b
  | None => false
  end.

End Js.

Declare Scope completion_scope.
Delimit Scope completion_scope with completion.
Notation "x <- c ;; k" := (Js.bind c (fun x => k))
  (at level 61, c at next level, right associativity) : completion_scope.

(** ** The part of urql the hooks talk to *)
Module Urql.

Inductive RequestPolicy : Type :=
| CacheFirst
| CacheOnly
| NetworkOnly
| CacheAndNetwork.

(** [Partial<OperationContext>], restricted to the two fields the hooks set. *)
Record OperationContext : Type := {
  requestPolicy : option RequestPolicy;
  suspense : option bool;
}.

(** The argument object of urql's [useQuery]. *)
Record UseQueryArgs (Query Variables : Type) : Type := {
  query : Query;
  variables : Variables;
  pause : option bool;
  context : OperationContext;
}.

(** The fields of [UseQueryState] the classifier reads.  [Data] is the result
    type of a typed GraphQL document ([TypedDocumentNode<Data, Variables>]): a
    response object keyed by root field, and an object is truthy.  So [!data]
    holds exactly when there is no data ([undefined] or [null], both [None]
    here).  The same goes for [error], a [CombinedError] instance. *)
Record UseQueryState (Data : Type) : Type := {
  data : option Data;
  fetching : bool;
  error : option Js.Error;
}.

(** A call of the execute function [useQuery] returns next to its state. *)
Inductive ClientCall : Type :=
| ExecuteQuery (opts : OperationContext).

(** What a callback does to the client when it is invoked: the calls it makes,
    in order. *)
Definition Action : Type := list ClientCall.

(** The execute function, called with [opts]. *)
Definition _refetch (opts : OperationContext) : Action := [ExecuteQuery opts].

End Urql.


(** ** useQuery.ts: the classifier *)
Module UseQuery.

(** The [status] tags: 'paused', 'fetching', 'success', 'error', 'retrying'. *)
Inductive Status : Type :=
| StPaused
| StFetching
| StSuccess
| StError
| StRetrying.

Inductive QueryResult (SelectedData : Type) : Type :=
| PausedResult
| FetchingResult
| SuccessResult (data : SelectedData)
| ErrorResult (error : Js.Error).
Arguments PausedResult {SelectedData}.
Arguments FetchingResult {SelectedData}.
Arguments ErrorResult {SelectedData} error.

Definition status {S} (r : QueryResult S) : Status :=
  match r with
  | PausedResult => StPaused
  | FetchingResult => StFetching
  | SuccessResult _ => StSuccess
  | ErrorResult _ => StError
  end.

Record UseAppQueryReturn (Result Data : Type) : Type := {
  result : Result;
  refetch : Urql.Action;
  __rawValue : option Data;
}.

(** [class SelectorError]: the constructor stores its argument as [cause]. *)
Definition SelectorError (error : option Js.Error) : Js.Error :=
  Js.mkError Js.ClsSelectorError
    "[Query] Query selector threw an error. See cause for more details." error.

(** [class NoDataError] *)
Definition NoDataError : Js.Error :=
  Js.mkError Js.ClsNoDataError "[Query] Query returned no data." None.

Record UseAppQueryProps (Query Variables Data SelectedData : Type) : Type := {
  query : Query;
  variables : Variables;
  selector : Data -> Js.Completion SelectedData;
  paused : option bool;
  requestPolicy : option Urql.RequestPolicy;
}.

Section UseAppQuery.
Context {Query Variables Data SelectedData : Type}.

(** The object [useAppQuery] passes to urql's [useQuery]. *)
Definition useQueryArgs (props : UseAppQueryProps Query Variables Data SelectedData)
  : Urql.UseQueryArgs Query Variables :=
  {| Urql.query := query props;
     Urql.variables := variables props;
     Urql.pause := paused props;
     Urql.context :=
       {| Urql.requestPolicy := requestPolicy props;
          Urql.suspense := Some false |} |}.

(** The [refetch] callback: [_refetch] with a fixed argument. *)
Definition refetch_callback : Urql.Action :=
  Urql._refetch
    {| Urql.requestPolicy := Some Urql.NetworkOnly; Urql.suspense := None |}.

Definition resultWrapper (data : option Data) {T} (result : T)
  : UseAppQueryReturn T Data :=
  {| result := result; refetch := refetch_callback; __rawValue := data |}.

(** The [catch] clause around the selector call. *)
Definition selector_failed (data : option Data) (thrown : Js.Value)
  : Js.Completion (UseAppQueryReturn (QueryResult SelectedData) Data) :=
  match Js.instanceof_Error thrown with
  | Some e => Js.Normal (resultWrapper data (ErrorResult (SelectorError (Some e))))
  | None => Js.Normal (resultWrapper data (ErrorResult (SelectorError None)))
  end.

(** [useAppQuery], given the client's [useQuery] as [client]. *)
Definition useAppQuery
  (client : Urql.UseQueryArgs Query Variables -> Urql.UseQueryState Data)
  (props : UseAppQueryProps Query Variables Data SelectedData)
  : Js.Completion (UseAppQueryReturn (QueryResult SelectedData) Data) :=
  let st := client (useQueryArgs props) in
  let data := Urql.data st in
  if Js.to_boolean (paused props) then
    Js.Normal (resultWrapper data PausedResult)
  else if Urql.fetching st then
    Js.Normal (resultWrapper data FetchingResult)
  else
    match Urql.error st with
    | Some error => Js.Normal (resultWrapper data (ErrorResult error))
    | None =>
      match data with
      | None => Js.Normal (resultWrapper data (ErrorResult NoDataError))
      | Some d =>
        Js.try_catch
          (v <- selector props d ;;
           Js.Normal (resultWrapper data (SuccessResult v)))%completion
          (selector_failed data)
      end
    end.

End UseAppQuery.
End UseQuery.

(** ** useRetryableQuery.ts: the retry wrapper *)
Module UseRetryableQuery.
Import UseQuery.

(** What [retryIf] answers: a boolean, or 'bail'. *)
Inductive RetryVerdict : Type :=
| Verdict (b : bool)
| Bail.

Definition verdict_eqb (a b : RetryVerdict) : bool :=
  match a, b with
  | Verdict x, Verdict y => Bool.eqb x y
  | Bail, Bail => true
  | _, _ => false
  end.

Definition status_eqb (a b : Status) : bool :=
  match a, b with
  | StPaused, StPaused | StFetching, StFetching | StSuccess, StSuccess
  | StError, StError | StRetrying, StRetrying => true
  | _, _ => false
  end.

(** [QueryResult<SelectedData> | RetryingResult] *)
Inductive RetryableResult (SelectedData : Type) : Type :=
| Classified (r : QueryResult SelectedData)
| RetryingResult (counts : Z).
Arguments RetryingResult {SelectedData} counts.

(** [retryIf] and [retryDelay] are called outside any [try]; they are taken to
    return normally, as their types say. *)
Record UseRetryableQueryProps (Query Variables Data SelectedData : Type) : Type := {
  query : Query;
  variables : Variables;
  pause : option bool;
  selector : option Data -> Js.Completion SelectedData;
  retryIf : option Data -> RetryVerdict;
  retryDelay : option (Z -> Z);
  maxRetryCount : Z;
}.

(** Modelled from the spec: [wait] of ./utils is not among the sources; the spec
    has the retry run "after the configured delay", a number of milliseconds.
    [wait(delay).then(callback)] is the pending task below: the delay, and what
    the callback captured ([input.maxRetryCount] and [query.refetch]). *)
Record Deferred : Type := {
  delay : Z;
  captured_maxRetryCount : Z;
  captured_refetch : Urql.Action;
}.

(** The callback given to [then], run on the value of [retryCounts.current] at
    the time the delay elapses: the new value, and the client calls made. *)
Definition retryCallback (d : Deferred) (current : Z) : Z * Urql.Action :=
  if current >=? captured_maxRetryCount d then (current, [])
  else (current + 1, captured_refetch d).

(** What one call of the hook hands to React: the returned object, and the
    effect with its dependency array. *)
Record Rendered (Data SelectedData : Type) : Type := {
  returned : UseAppQueryReturn (RetryableResult SelectedData) Data;
  deps : RetryVerdict * Status;
  effect : Z -> option Deferred;
}.

Section UseRetryableQuery.
Context {Query Variables Data SelectedData : Type}.

(** [input.pause || retryCounts.current >= input.maxRetryCount] *)
Definition shouldPause
  (input : UseRetryableQueryProps Query Variables Data SelectedData)
  (current : Z) : bool :=
  Js.to_boolean (pause input) || (current >=? maxRetryCount input).

(** The props the wrapper calls [useAppQuery] with. *)
Definition appQueryProps
  (input : UseRetryableQueryProps Query Variables Data SelectedData)
  (current : Z) : UseAppQueryProps Query Variables Data SelectedData :=
  {| UseQuery.query := query input;
     UseQuery.variables := variables input;
     UseQuery.paused := Some (shouldPause input current);
     UseQuery.selector := fun d => selector input (Some d);
     UseQuery.requestPolicy := Some Urql.NetworkOnly |}.

(** [input.retryDelay?.(nextRetryCount) ?? nextRetryCount * 1000] *)
Definition retry_delay
  (input : UseRetryableQueryProps Query Variables Data SelectedData)
  (nextRetryCount : Z) : Z :=
  match retryDelay input with
  | Some f => f nextRetryCount
  | None => nextRetryCount * 1000
  end.

(** The body of the effect, run on the value of [retryCounts.current] at the
    time React runs it. *)
Definition retryEffect
  (input : UseRetryableQueryProps Query Variables Data SelectedData)
  (shouldRetry : RetryVerdict)
  (query : UseAppQueryReturn (QueryResult SelectedData) Data)
  (current : Z) : option Deferred :=
  if negb (verdict_eqb shouldRetry (Verdict true)) then None
  else if negb (status_eqb (status (result query)) StFetching) then None
  else if current >=? maxRetryCount input then None
  else
    let nextRetryCount := current + 1 in
    Some {| delay := retry_delay input nextRetryCount;
            captured_maxRetryCount := maxRetryCount input;
            captured_refetch := refetch query |}.

(** [{...query, result}] *)
Definition with_result {A B}
  (query : UseAppQueryReturn A Data) (r : B) : UseAppQueryReturn B Data :=
  {| result := r; refetch := refetch query; __rawValue := __rawValue query |}.

(** The [return] statements that end the hook: the override of the result. *)
Definition overridden
  (input : UseRetryableQueryProps Query Variables Data SelectedData)
  (shouldRetry : RetryVerdict)
  (query : UseAppQueryReturn (QueryResult SelectedData) Data)
  (current : Z) : UseAppQueryReturn (RetryableResult SelectedData) Data :=
  if current >=? maxRetryCount input then
    with_result query
      (Classified (ErrorResult (Js.new_Error "Max retry count exceeded")))
  else
    match shouldRetry with
    | Bail => with_result query (Classified (ErrorResult (Js.new_Error "Bailed")))
    | Verdict true => with_result query (RetryingResult current)
    | Verdict false => with_result query (Classified (result query))
    end.

(** [useRetryableQuery], on the value [current] of [retryCounts.current]. *)
Definition useRetryableQuery
  (client : Urql.UseQueryArgs Query Variables -> Urql.UseQueryState Data)
  (input : UseRetryableQueryProps Query Variables Data SelectedData)
  (current : Z) : Js.Completion (Rendered Data SelectedData) :=
  (query <- useAppQuery client (appQueryProps input current) ;;
   let shouldRetry := retryIf input (__rawValue query) in
   Js.Normal
     {| deps := (shouldRetry, status (result query));
        effect := retryEffect input shouldRetry query;
        returned := overridden input shouldRetry query current |})%completion.

End UseRetryableQuery.
End UseRetryableQuery.

(** ** A mounted instance of a component that calls [useRetryableQuery]

    React's part of the contract: the [useRef] cell lives as long as the
    instance and starts at [0]; the effect runs after the first render, and
    after a later render only if an entry of its dependency array differs from
    the previous render's; the effect returns no cleanup function, so unmounting
    leaves the pending tasks alone. *)
Module Component.
Import UseQuery UseRetryableQuery.

Record Instance : Type := {
  retryCounts : Z;                              (* useRef(0) *)
  lastDeps : option (RetryVerdict * Status);    (* the previous render's array *)
  pending : list Deferred;                      (* tasks whose delay runs *)
  mounted : bool;
}.

Definition mount : Instance :=
  {| retryCounts := 0; lastDeps := None; pending := []; mounted := true |}.

Definition deps_eqb (a b : RetryVerdict * Status) : bool :=
  verdict_eqb (fst a) (fst b) && status_eqb (snd a) (snd b).

(** Whether React runs the effect after a render with dependency array [now]. *)
Definition effect_runs (last : option (RetryVerdict * Status))
  (now : RetryVerdict * Status) : bool :=
  match last with
  | None => true
  | Some before => negb (deps_eqb before now)
  end.

Definition option_to_list {A} (o : option A) : list A :=
  match o with
  | Some a => [a]
  | None => []
  end.

Fixpoint remove_nth {A} (i : nat) (l : list A) : list A :=
  match l, i with
  | [], _ => []
  | _ :: l, O => l
  | a :: l, S i => a :: remove_nth i l
  end.

Section Instance.
Context {Query Variables Data SelectedData : Type}.

(** What happens to an instance: a render with the props and the client of the
    moment, the delay of the [i]-th pending task elapsing, or the unmount. *)
Inductive Event : Type :=
| Render (input : UseRetryableQueryProps Query Variables Data SelectedData)
         (client : Urql.UseQueryArgs Query Variables -> Urql.UseQueryState Data)
| Elapse (i : nat)
| Unmount.

(** One render, and the effect after it. *)
Definition render
  (input : UseRetryableQueryProps Query Variables Data SelectedData)
  (client : Urql.UseQueryArgs Query Variables -> Urql.UseQueryState Data)
  (st : Instance) : Instance :=
  match useRetryableQuery client input (retryCounts st) with
  | Js.Throw _ => st
  | Js.Normal r =>
    {| retryCounts := retryCounts st;
       lastDeps := Some (deps r);
       pending :=
         pending st ++
         (if effect_runs (lastDeps st) (deps r)
          then option_to_list (effect r (retryCounts st))
          else []);
       mounted := mounted st |}
  end.

(** The [i]-th pending task's delay elapses: its callback runs. *)
Definition elapse (i : nat) (st : Instance) : Instance * Urql.Action :=
  match nth_error (pending st) i with
  | None => (st, [])
  | Some d =>
    let '(current, calls) := retryCallback d (retryCounts st) in
    ({| retryCounts := current;
        lastDeps := lastDeps st;
        pending := remove_nth i (pending st);
        mounted := mounted st |}, calls)
  end.

Definition unmount (st : Instance) : Instance :=
  {| retryCounts := retryCounts st;
     lastDeps := lastDeps st;
     pending := pending st;
     mounted := false |}.

(** One event: the next instance, and the client calls the event made. *)
Definition step (st : Instance) (ev : Event) : Instance * Urql.Action :=
  match ev with
  | Render input client =>
    if mounted st then (render input client st, []) else (st, [])
  | Elapse i => elapse i st
  | Unmount => (unmount st, [])
  end.

(** A sequence of events from [st]: the last instance, and all calls made. *)
Fixpoint run (st : Instance) (evs : list Event) : Instance * Urql.Action :=
  match evs with
  | [] => (st, [])
  | ev :: evs =>
    let '(st1, calls1) := step st ev in
    let '(st2, calls2) := run st1 evs in
    (st2, calls1 ++ calls2)
  end.

End Instance.
End Component.

(** ** Concrete inputs

    A job-status query: the response object has a [count] field, and a [ready]
    field once the job is done.  The selector reads [count] and throws when it
    is missing; the retry predicate asks for a retry until [ready] is there. *)
Module Sample.
Import UseQuery UseRetryableQuery Component.
Local Open Scope string_scope.

Definition Response : Type := list (string * Z).

Fixpoint field (name : string) (r : Response) : option Z :=
  match r with
  | [] => None
  | (k, v) :: r => if String.eqb k name then Some v else field name r
  end.

Definition count_selector (data : Response) : Js.Completion Z :=
  match field "count" data with
  | Some v => Js.Normal v
  | None => Js.Throw (Js.VError (Js.new_Error "count is missing"))
  end.

Definition retry_until_ready (data : option Response) : RetryVerdict :=
  match data with
  | None => Verdict true
  | Some r =>
    match field "ready" r with
    | Some _ => Verdict false
    | None => Verdict true
    end
  end.

Definition props (paused : option bool)
  : UseAppQueryProps string unit Response Z :=
  {| UseQuery.query := "query Job { count ready }";
     UseQuery.variables := tt;
     UseQuery.selector := count_selector;
     UseQuery.paused := paused;
     UseQuery.requestPolicy := Some Urql.CacheFirst |}.

Definition input (maxRetryCount : Z)
  : UseRetryableQueryProps string unit Response Z :=
  {| UseRetryableQuery.query := "query Job { count ready }";
     UseRetryableQuery.variables := tt;
     UseRetryableQuery.pause := None;
     UseRetryableQuery.selector :=
       fun data =>
         match data with
         | Some r => count_selector r
         | None => Js.Throw (Js.VError (Js.new_Error "no response"))
         end;
     UseRetryableQuery.retryIf := retry_until_ready;
     UseRetryableQuery.retryDelay := None;
     UseRetryableQuery.maxRetryCount := maxRetryCount |}.

(** Clients: each leaves a paused query idle. *)
Definition idle : Urql.UseQueryState Response :=
  {| Urql.data := None; Urql.fetching := false; Urql.error := None |}.

Definition respecting_pause (st : Urql.UseQueryState Response)
  (args : Urql.UseQueryArgs string unit) : Urql.UseQueryState Response :=
  if Js.to_boolean (Urql.pause args) then idle else st.

(** The first fetch is under way. *)
Definition loading : Urql.UseQueryArgs string unit -> Urql.UseQueryState Response :=
  respecting_pause
    {| Urql.data := None; Urql.fetching := true; Urql.error := None |}.

(** A refetch is under way; the previous response is still there. *)
Definition refetching : Urql.UseQueryArgs string unit -> Urql.UseQueryState Response :=
  respecting_pause
    {| Urql.data := Some [("count", 5)]; Urql.fetching := true;
       Urql.error := None |}.

(** The fetch settled with a response. *)
Definition settled (r : Response)
  : Urql.UseQueryArgs string unit -> Urql.UseQueryState Response :=
  respecting_pause
    {| Urql.data := Some r; Urql.fetching := false; Urql.error := None |}.

Definition network_error : Js.Error :=
  Js.mkError Js.ClsCombinedError "[Network] Failed to fetch" None.

(** The fetch failed. *)
Definition failed : Urql.UseQueryArgs string unit -> Urql.UseQueryState Response :=
  respecting_pause
    {| Urql.data := None; Urql.fetching := false;
       Urql.error := Some network_error |}.


(** An instance with two retries pending and a budget of 1: the first was
    scheduled after the first render, the second after a refetch that started
    once the first fetch had settled. *)
Definition two_pending : Instance :=
  fst (run mount
         [Render (input 1) loading;
          Render (input 1) (settled [("count", 5)]);
          Render (input 1) refetching]).

(** The same instance once the first retry has fired. *)
Definition one_fired : Instance := fst (elapse 0 two_pending).

(** A life with a budget of 1: two retries get scheduled, both fire, the
    component unmounts in between. *)
Definition busy_life : list (@Event string unit Response Z) :=
  [Render (input 1) loading;
   Render (input 1) (settled [("count", 5)]);
   Render (input 1) refetching;
   Elapse 0;
   Unmount;
   Elapse 0].

(** A budget of 3: the first retry fired, the refetch it made is under way
    and a second retry is pending. *)
Definition retried_once : list (@Event string unit Response Z) :=
  [Render (input 3) loading;
   Render (input 3) (settled [("count", 5)]);
   Elapse 0;
   Render (input 3) refetching].

(** Props whose predicate gives up at once, and a delay function of its own. *)
Definition bailing (maxRetryCount : Z)
  : UseRetryableQueryProps string unit Response Z :=
  {| UseRetryableQuery.query := "query Job { count ready }";
     UseRetryableQuery.variables := tt;
     UseRetryableQuery.pause := None;
     UseRetryableQuery.selector := UseRetryableQuery.selector (input maxRetryCount);
     UseRetryableQuery.retryIf := fun _ => Bail;
     UseRetryableQuery.retryDelay := Some (fun attempt => 250 * attempt);
     UseRetryableQuery.maxRetryCount := maxRetryCount |}.

End Sample.

(** ** The error taxonomy, in the words of the specification *)
Module Taxonomy.
Import UseQuery.

Definition selector_failed (e : Js.Error) : Prop := exists c, e = SelectorError c.
Definition no_data (e : Js.Error) : Prop := e = NoDataError.
Definition max_retry_count_exceeded (e : Js.Error) : Prop :=
  e = Js.new_Error "Max retry count exceeded".
Definition bailed (e : Js.Error) : Prop := e = Js.new_Error "Bailed".

(** The four causes the specification lists. *)
Definition listed (e : Js.Error) : Prop :=
  selector_failed e \/ no_data e \/ max_retry_count_exceeded e \/ bailed e.

End Taxonomy.

(** ** Sequences of events, and props that differ in the selector only *)
Module Trace.
Import UseQuery UseRetryableQuery Component.

Section Trace.
Context {Query Variables Data SelectedData : Type}.


(** No render of the sequence is given a [maxRetryCount] above [m]. *)
Definition budgets_within (m : Z)
  (evs : list (@Event Query Variables Data SelectedData)) : Prop :=
  Forall (fun ev => match ev with
                    | Render i _ => maxRetryCount i <= m
                    | _ => True
                    end) evs.

(** [{...props, selector}] *)
Definition with_selector
  (props : UseAppQueryProps Query Variables Data SelectedData)
  (selector : Data -> Js.Completion SelectedData)
  : UseAppQueryProps Query Variables Data SelectedData :=
  {| UseQuery.query := UseQuery.query props;
     UseQuery.variables := UseQuery.variables props;
     UseQuery.selector := selector;
     UseQuery.paused := paused props;
     UseQuery.requestPolicy := requestPolicy props |}.

End Trace.

(** The one call [refetch] makes. *)
Definition forced_refetch : Urql.ClientCall :=
  Urql.ExecuteQuery
    {| Urql.requestPolicy := Some Urql.NetworkOnly; Urql.suspense := None |}.

End Trace.

(** * Properties *)

Import UseQuery UseRetryableQuery Component.
Unset Implicit Arguments.

(** JavaScript truthiness of an optional boolean, as a proposition. *)
Lemma to_boolean_true (b : option bool) : Js.to_boolean b = true <-> b = Some true.
Proof.
  destruct b as [[|]|]; simpl; split; intro H; try reflexivity; discriminate H.
Qed.

Lemma to_boolean_false (b : option bool) :
  Js.to_boolean b = false <-> b <> Some true.
Proof.
  rewrite <- to_boolean_true. destruct (Js.to_boolean b); split; intro H;
    try reflexivity; try discriminate H; try (intro E; discriminate E).
  exfalso. apply H. reflexivity.
Qed.

Lemma verdict_eqb_eq (a b : RetryVerdict) : verdict_eqb a b = true <-> a = b.
Proof.
  destruct a as [[|]|], b as [[|]|]; simpl; split; intro H;
    try reflexivity; discriminate H.
Qed.

Lemma status_eqb_eq (a b : Status) : status_eqb a b = true <-> a = b.
Proof.
  destruct a, b; simpl; split; intro H; try reflexivity; discriminate H.
Qed.

Lemma deps_eqb_eq (a b : RetryVerdict * Status) : deps_eqb a b = true <-> a = b.
Proof.
  destruct a as [v s], b as [v' s']. unfold deps_eqb; simpl.
  rewrite andb_true_iff, verdict_eqb_eq, status_eqb_eq.
  split; [ intros [-> ->]; reflexivity | intro H; inversion H; auto ].
Qed.


Section Classifier.
Context {Query Variables Data SelectedData : Type}.
Variable client : Urql.UseQueryArgs Query Variables -> Urql.UseQueryState Data.
Variable props : UseAppQueryProps Query Variables Data SelectedData.

(** What the selector's outcome on [d] becomes in the classifier's result. *)
Lemma useAppQuery_selects (d : Data) :
  Js.to_boolean (paused props) = false ->
  Urql.fetching (client (useQueryArgs props)) = false ->
  Urql.error (client (useQueryArgs props)) = None ->
  Urql.data (client (useQueryArgs props)) = Some d ->
  useAppQuery client props =
  Js.Normal
    (resultWrapper (Some d)
       match UseQuery.selector props d with
       | Js.Normal v => SuccessResult v
       | Js.Throw thrown => ErrorResult (SelectorError (Js.instanceof_Error thrown))
       end).
Proof.
  intros Hp Hf He Hd. unfold useAppQuery. rewrite Hp, Hf, He, Hd.
  destruct (UseQuery.selector props d) as [v|thrown]; simpl; [ reflexivity | ].
  unfold selector_failed. destruct (Js.instanceof_Error thrown); reflexivity.
Qed.

(** The classifier returns; what it returns holds the callback that calls the
    execute function with 'network-only', and the client's data untouched. *)
Lemma useAppQuery_returns :
  exists r,
    useAppQuery client props = Js.Normal r /\
    refetch r = refetch_callback /\
    __rawValue r = Urql.data (client (useQueryArgs props)).
Proof.
  unfold useAppQuery.
  destruct (Js.to_boolean (paused props)); [ eexists; repeat split | ].
  destruct (Urql.fetching (client (useQueryArgs props))); [ eexists; repeat split | ].
  destruct (Urql.error (client (useQueryArgs props))); [ eexists; repeat split | ].
  destruct (Urql.data (client (useQueryArgs props))) as [d|]; [ | eexists; repeat split ].
  destruct (UseQuery.selector props d) as [v|thrown]; simpl; [ eexists; repeat split | ].
  unfold selector_failed.
  destruct (Js.instanceof_Error thrown); eexists; repeat split.
Qed.

(** Where an error result of the classifier gets its cause from. *)
Lemma useAppQuery_error_cause (r : UseAppQueryReturn (QueryResult SelectedData) Data)
  (e : Js.Error) :
  useAppQuery client props = Js.Normal r ->
  result r = ErrorResult e ->
  Urql.error (client (useQueryArgs props)) = Some e \/
  e = NoDataError \/
  exists d thrown,
    Urql.data (client (useQueryArgs props)) = Some d /\
    UseQuery.selector props d = Js.Throw thrown /\
    e = SelectorError (Js.instanceof_Error thrown).
Proof.
  unfold useAppQuery.
  destruct (Js.to_boolean (paused props)).
  { intros [= <-]; discriminate. }
  destruct (Urql.fetching (client (useQueryArgs props))).
  { intros [= <-]; discriminate. }
  destruct (Urql.error (client (useQueryArgs props))) as [ce|].
  { intros [= <-] [= <-]. left; reflexivity. }
  destruct (Urql.data (client (useQueryArgs props))) as [d|].
  2:{ intros [= <-] [= <-]. right; left; reflexivity. }
  destruct (UseQuery.selector props d) as [v|thrown] eqn:Hs; simpl.
  { intros [= <-]; discriminate. }
  unfold selector_failed.
  intros H Hr. right; right. exists d, thrown.
  destruct (Js.instanceof_Error thrown); injection H as <-; injection Hr as <-;
    (split; [ reflexivity | split; [ exact Hs | reflexivity ] ]).
Qed.

(** C1. For every input the classifier's result follows a cascade in which
    the first match wins: [paused] passed as [true] gives the paused result,
    whatever the client reports; otherwise a fetching client gives the fetching
    result; otherwise an error reported by the client gives the error result
    holding that error; otherwise absent data gives the error result holding a
    [NoDataError]; otherwise the selector is applied to the data, and its
    outcome decides the result. *)
Theorem useAppQuery_first_match_wins :
  let st := client (useQueryArgs props) in
  let wrap := @resultWrapper Data (Urql.data st) (QueryResult SelectedData) in
  (paused props = Some true ->
   useAppQuery client props = Js.Normal (wrap PausedResult)) /\
  (paused props <> Some true -> Urql.fetching st = true ->
   useAppQuery client props = Js.Normal (wrap FetchingResult)) /\
  (forall e,
   paused props <> Some true -> Urql.fetching st = false ->
   Urql.error st = Some e ->
   useAppQuery client props = Js.Normal (wrap (ErrorResult e))) /\
  (paused props <> Some true -> Urql.fetching st = false ->
   Urql.error st = None -> Urql.data st = None ->
   useAppQuery client props = Js.Normal (wrap (ErrorResult NoDataError))) /\
  (forall d,
   paused props <> Some true -> Urql.fetching st = false ->
   Urql.error st = None -> Urql.data st = Some d ->
   useAppQuery client props =
   Js.Normal
     (wrap
        match UseQuery.selector props d with
        | Js.Normal v => SuccessResult v
        | Js.Throw thrown => ErrorResult (SelectorError (Js.instanceof_Error thrown))
        end)).
Proof.
  cbv zeta. repeat split.
  - intro Hp. apply to_boolean_true in Hp. unfold useAppQuery. rewrite Hp.
    reflexivity.
  - intros Hp Hf. apply to_boolean_false in Hp. unfold useAppQuery.
    rewrite Hp, Hf. reflexivity.
  - intros e Hp Hf He. apply to_boolean_false in Hp. unfold useAppQuery.
    rewrite Hp, Hf, He. reflexivity.
  - intros Hp Hf He Hd. apply to_boolean_false in Hp. unfold useAppQuery.
    rewrite Hp, Hf, He, Hd. reflexivity.
  - intros d Hp Hf He Hd. apply to_boolean_false in Hp. rewrite Hd.
    apply useAppQuery_selects; assumption.
Qed.

End Classifier.

(** C2, as stated, fails: the client reports no error, data is present and the
    selector returns [5] on it, yet the result is the fetching one, because a
    refetch is under way. *)
Lemma refetching_with_data_is_not_success :
  Urql.error (Sample.refetching (useQueryArgs (Sample.props None))) = None /\
  Urql.data (Sample.refetching (useQueryArgs (Sample.props None)))
    = Some [("count"%string, 5)] /\
  UseQuery.selector (Sample.props None) [("count"%string, 5)] = Js.Normal 5 /\
  useAppQuery Sample.refetching (Sample.props None)
    = Js.Normal (resultWrapper (Some [("count"%string, 5)]) FetchingResult) /\
  useAppQuery Sample.refetching (Sample.props None)
    <> Js.Normal (resultWrapper (Some [("count"%string, 5)]) (SuccessResult 5)).
Proof.
  repeat split; try reflexivity. intro H. discriminate H.
Qed.

(** C2, amended. For every input where the caller did not pass [paused] as
    [true], the client is not fetching, reports no error and data is present:
    if the selector returns [v] on the data the result is the success result
    holding [v]; if it throws an [Error] [e] the result is the error result
    holding a [SelectorError] whose [cause] is [e]; if it throws something else
    the cause is left undefined; and in every case the hook returns. *)
Theorem selector_outcome_decides {Query Variables Data SelectedData : Type}
  (client : Urql.UseQueryArgs Query Variables -> Urql.UseQueryState Data)
  (props : UseAppQueryProps Query Variables Data SelectedData) (d : Data) :
  paused props <> Some true ->
  Urql.fetching (client (useQueryArgs props)) = false ->
  Urql.error (client (useQueryArgs props)) = None ->
  Urql.data (client (useQueryArgs props)) = Some d ->
  (forall v, UseQuery.selector props d = Js.Normal v ->
     useAppQuery client props
       = Js.Normal (resultWrapper (Some d) (SuccessResult v))) /\
  (forall e, UseQuery.selector props d = Js.Throw (Js.VError e) ->
     useAppQuery client props
       = Js.Normal (resultWrapper (Some d) (ErrorResult (SelectorError (Some e)))) /\
     Js.cls (SelectorError (Some e)) = Js.ClsSelectorError /\
     Js.cause (SelectorError (Some e)) = Some e) /\
  (forall thrown, UseQuery.selector props d = Js.Throw thrown ->
     Js.instanceof_Error thrown = None ->
     useAppQuery client props
       = Js.Normal (resultWrapper (Some d) (ErrorResult (SelectorError None)))) /\
  (exists r, useAppQuery client props = Js.Normal r).
Proof.
  intros Hp Hf He Hd. apply to_boolean_false in Hp.
  pose proof (useAppQuery_selects client props d Hp Hf He Hd) as Hsel.
  repeat split.
  - intros v Hv. rewrite Hsel, Hv. reflexivity.
  - rewrite Hsel, H. reflexivity.
  - intros thrown Ht Hi. rewrite Hsel, Ht, Hi. reflexivity.
  - eexists. exact Hsel.
Qed.

Lemma selector_outcome_decides_witness :
  useAppQuery (Sample.settled [("count"%string, 7)]) (Sample.props None)
    = Js.Normal (resultWrapper (Some [("count"%string, 7)]) (SuccessResult 7)) /\
  useAppQuery (Sample.settled [("total"%string, 7)]) (Sample.props None)
    = Js.Normal
        (resultWrapper (Some [("total"%string, 7)])
           (ErrorResult (SelectorError (Some (Js.new_Error "count is missing"))))).
Proof.
  split.
  - refine (proj1 (selector_outcome_decides
                     (Sample.settled [("count"%string, 7)]) (Sample.props None)
                     [("count"%string, 7)] _ eq_refl eq_refl eq_refl) 7 eq_refl).
    discriminate.
  - refine (proj1 (proj1 (proj2 (selector_outcome_decides
                     (Sample.settled [("total"%string, 7)]) (Sample.props None)
                     [("total"%string, 7)] _ eq_refl eq_refl eq_refl))
                     (Js.new_Error "count is missing") eq_refl)).
    discriminate.
Defined.

(** C8. The [refetch] callback the classifier returns calls the execute
    function with request policy 'network-only', whatever request policy the
    props configure. *)
Theorem refetch_forces_network_only {Query Variables Data SelectedData : Type}
  (client : Urql.UseQueryArgs Query Variables -> Urql.UseQueryState Data)
  (props : UseAppQueryProps Query Variables Data SelectedData) :
  exists r,
    useAppQuery client props = Js.Normal r /\
    refetch r =
    [Urql.ExecuteQuery
       {| Urql.requestPolicy := Some Urql.NetworkOnly; Urql.suspense := None |}].
Proof.
  destruct (useAppQuery_returns client props) as (r & Hr & Hf & _).
  exists r. split; [ exact Hr | exact Hf ].
Qed.

Section Wrapper.
Context {Query Variables Data SelectedData : Type}.
Variable client : Urql.UseQueryArgs Query Variables -> Urql.UseQueryState Data.
Variable input : UseRetryableQueryProps Query Variables Data SelectedData.

(** The wrapper returns: the classifier it calls returns [query], and the
    rest is computed from [query]. *)
Lemma useRetryableQuery_returns (n : Z) :
  exists query,
    useAppQuery client (appQueryProps input n) = Js.Normal query /\
    refetch query = refetch_callback /\
    __rawValue query = Urql.data (client (useQueryArgs (appQueryProps input n))) /\
    useRetryableQuery client input n =
    Js.Normal
      {| deps := (retryIf input (__rawValue query), status (result query));
         effect := retryEffect input (retryIf input (__rawValue query)) query;
         returned := overridden input (retryIf input (__rawValue query)) query n |}.
Proof.
  destruct (useAppQuery_returns client (appQueryProps input n))
    as (query & Hq & Hf & Hraw).
  exists query. repeat split; try assumption.
  unfold useRetryableQuery. rewrite Hq. reflexivity.
Qed.

(** With the counter at the budget, the classifier is called paused. *)
Lemma exhausted_budget_pauses (n : Z) :
  maxRetryCount input <= n ->
  forall query,
    useAppQuery client (appQueryProps input n) = Js.Normal query ->
    status (result query) = StPaused.
Proof.
  intros Hn query. unfold useAppQuery. simpl.
  assert (Hp : shouldPause input n = true).
  { unfold shouldPause. apply orb_true_iff. right. apply Z.geb_le. exact Hn. }
  rewrite Hp. intros [= <-]. reflexivity.
Qed.

(** The tasks pending after a render: one more exactly when the effect runs
    and its three guards pass. *)
Lemma render_pending (st : Instance) :
  exists query,
    useAppQuery client (appQueryProps input (retryCounts st)) = Js.Normal query /\
    refetch query = refetch_callback /\
    lastDeps (render input client st)
      = Some (retryIf input (__rawValue query), status (result query)) /\
    retryCounts (render input client st) = retryCounts st /\
    pending (render input client st) =
    pending st ++
    (if effect_runs (lastDeps st)
          (retryIf input (__rawValue query), status (result query))
        && verdict_eqb (retryIf input (__rawValue query)) (Verdict true)
        && status_eqb (status (result query)) StFetching
        && (retryCounts st <? maxRetryCount input)
     then [{| delay := retry_delay input (retryCounts st + 1);
              captured_maxRetryCount := maxRetryCount input;
              captured_refetch := refetch_callback |}]
     else []).
Proof.
  destruct (useRetryableQuery_returns (retryCounts st)) as (query & Hq & Hf & _ & Hr).
  exists query. split; [ exact Hq | ]. split; [ exact Hf | ].
  unfold render. rewrite Hr. simpl. repeat split.
  f_equal.
  destruct (effect_runs _ _); simpl; [ | reflexivity ].
  unfold retryEffect.
  destruct (verdict_eqb _ _); simpl; [ | reflexivity ].
  destruct (status_eqb _ _); simpl; [ | reflexivity ].
  rewrite Z.geb_leb, Z.ltb_antisym.
  destruct (maxRetryCount input <=? retryCounts st); simpl; [ reflexivity | ].
  rewrite Hf. reflexivity.
Qed.

End Wrapper.

(** The counter never goes below its initial value. *)
Lemma retryCallback_counts (d : Deferred) (current : Z) :
  fst (retryCallback d current) = current \/
  fst (retryCallback d current) = current + 1.
Proof.
  unfold retryCallback. destruct (current >=? captured_maxRetryCount d); simpl; auto.
Qed.

Lemma step_retryCounts_nonneg {Query Variables Data SelectedData : Type}
  (st : Instance) (ev : Event (Query:=Query) (Variables:=Variables)
                          (Data:=Data) (SelectedData:=SelectedData)) :
  0 <= retryCounts st -> 0 <= retryCounts (fst (step st ev)).
Proof.
  intro H. destruct ev as [input client|i|]; simpl.
  - destruct (mounted st); simpl; [ | exact H ].
    destruct (render_pending client input st) as (_ & _ & _ & _ & Hn & _).
    rewrite Hn. exact H.
  - unfold elapse. destruct (nth_error (pending st) i) as [d|]; [ | exact H ].
    pose proof (retryCallback_counts d (retryCounts st)) as Hc.
    destruct (retryCallback d (retryCounts st)) as [current calls]; simpl in *.
    lia.
  - exact H.
Qed.

Lemma run_retryCounts_nonneg {Query Variables Data SelectedData : Type}
  (evs : list (Event (Query:=Query) (Variables:=Variables)
                 (Data:=Data) (SelectedData:=SelectedData))) :
  forall st, 0 <= retryCounts st -> 0 <= retryCounts (fst (run st evs)).
Proof.
  induction evs as [|ev evs IH]; intros st H; simpl; [ exact H | ].
  pose proof (step_retryCounts_nonneg st ev H) as Hs.
  destruct (step st ev) as [st1 calls1]; simpl in Hs.
  specialize (IH st1 Hs).
  destruct (run st1 evs) as [st2 calls2]; simpl in *. exact IH.
Qed.

(** A budget of one retry, from mount: the first render schedules the retry,
    its delay elapses, and the next render finds the budget used up, pauses the
    client's query and reports the error.  One refetch was made in all. *)
Example budget_of_one :
  run mount
    [Render (Sample.input 1) Sample.loading; Elapse 0;
     Render (Sample.input 1) Sample.loading]
  = ({| retryCounts := 1;
        lastDeps := Some (Verdict true, StPaused);
        pending := [];
        mounted := true |}, refetch_callback) /\
  useRetryableQuery Sample.loading (Sample.input 1) 1
  = Js.Normal
      {| returned :=
           resultWrapper None
             (Classified (ErrorResult (Js.new_Error "Max retry count exceeded")));
         deps := (Verdict true, StPaused);
         effect := retryEffect (Sample.input 1) (Verdict true)
                     (resultWrapper None PausedResult) |}.
Proof.
  split; reflexivity.
Qed.

(** C3. On every render of the retry wrapper, with the counter at [n], the
    result it returns is decided in this order: with [n] at or above
    [maxRetryCount] it is the error result holding 'Max retry count exceeded',
    whatever the classifier returned; otherwise, when [retryIf] answers 'bail'
    on the client's raw data, the error result holding 'Bailed'; otherwise,
    when it answers [true], the retrying result holding [n]; otherwise the
    classifier's result, unchanged. *)
Theorem retry_output_priority {Query Variables Data SelectedData : Type}
  (client : Urql.UseQueryArgs Query Variables -> Urql.UseQueryState Data)
  (input : UseRetryableQueryProps Query Variables Data SelectedData) (n : Z) :
  exists query r,
    useAppQuery client (appQueryProps input n) = Js.Normal query /\
    useRetryableQuery client input n = Js.Normal r /\
    __rawValue query = Urql.data (client (useQueryArgs (appQueryProps input n))) /\
    refetch (returned r) = refetch query /\
    __rawValue (returned r) = __rawValue query /\
    (maxRetryCount input <= n ->
     result (returned r)
       = Classified (ErrorResult (Js.new_Error "Max retry count exceeded"))) /\
    (n < maxRetryCount input -> retryIf input (__rawValue query) = Bail ->
     result (returned r) = Classified (ErrorResult (Js.new_Error "Bailed"))) /\
    (n < maxRetryCount input -> retryIf input (__rawValue query) = Verdict true ->
     result (returned r) = RetryingResult n) /\
    (n < maxRetryCount input -> retryIf input (__rawValue query) = Verdict false ->
     result (returned r) = Classified (result query)).
Proof.
  destruct (useRetryableQuery_returns client input n) as (query & Hq & _ & Hraw & Hr).
  eexists query, _. split; [ exact Hq | ]. split; [ exact Hr | ].
  split; [ exact Hraw | ]. simpl. unfold overridden.
  destruct (Z.geb_spec n (maxRetryCount input)) as [Hge|Hlt].
  - repeat split; try reflexivity; intros; lia.
  - destruct (retryIf input (__rawValue query)) as [[|]|];
      repeat split; try reflexivity; intros; try lia; discriminate.
Qed.

(** C9, as stated, fails: when the client reports an error, the classifier's
    error result holds that very error, a [CombinedError], which is none of
    the four listed causes. *)
Lemma client_error_is_not_listed :
  useAppQuery Sample.failed (Sample.props None)
    = Js.Normal (resultWrapper None (ErrorResult Sample.network_error)) /\
  ~ Taxonomy.listed Sample.network_error.
Proof.
  split; [ reflexivity | ].
  intros [[c H]|[H|[H|H]]]; discriminate H.
Qed.

(** C9, amended. Both hooks always return: what the selector throws is
    caught, and nothing else is thrown out of them ([retryIf] and [retryDelay]
    being taken to return).  An error result of the classifier holds the error
    the client reported, as it is, or a [NoDataError], or a [SelectorError] made
    from what the selector threw; an error result of the retry wrapper holds
    the error the client reported or one of the four listed causes. *)
Theorem error_results_carry_cause {Query Variables Data SelectedData : Type}
  (client : Urql.UseQueryArgs Query Variables -> Urql.UseQueryState Data) :
  (forall props : UseAppQueryProps Query Variables Data SelectedData,
   exists r,
     useAppQuery client props = Js.Normal r /\
     forall e, result r = ErrorResult e ->
       Urql.error (client (useQueryArgs props)) = Some e \/
       Taxonomy.no_data e \/
       exists d thrown,
         Urql.data (client (useQueryArgs props)) = Some d /\
         UseQuery.selector props d = Js.Throw thrown /\
         e = SelectorError (Js.instanceof_Error thrown)) /\
  (forall (input : UseRetryableQueryProps Query Variables Data SelectedData) n,
   exists r,
     useRetryableQuery client input n = Js.Normal r /\
     forall e, result (returned r) = Classified (ErrorResult e) ->
       Urql.error (client (useQueryArgs (appQueryProps input n))) = Some e \/
       Taxonomy.listed e).
Proof.
  split.
  - intro props. destruct (useAppQuery_returns client props) as (r & Hr & _).
    exists r. split; [ exact Hr | ].
    intros e He. exact (useAppQuery_error_cause client props r e Hr He).
  - intros input n.
    destruct (useRetryableQuery_returns client input n) as (query & Hq & _ & _ & Hr).
    eexists. split; [ exact Hr | ].
    simpl. unfold overridden. intros e.
    destruct (n >=? maxRetryCount input).
    { simpl. intros [= <-]. right. right. right. left. reflexivity. }
    destruct (retryIf input (__rawValue query)) as [[|]|]; simpl.
    + discriminate.
    + intros [= He].
      destruct (useAppQuery_error_cause client _ query e Hq He)
        as [H|[H|(d & thrown & _ & _ & H)]].
      * left. exact H.
      * right. right. left. exact H.
      * right. left. eexists. exact H.
    + intros [= <-]. right. right. right. right. reflexivity.
Qed.



(** C5, as stated, fails: a retry is scheduled on the first render, the
    component unmounts, and when the delay elapses the callback still adds one
    to the counter and calls [refetch]. *)
Lemma unmounted_retry_still_fires :
  mounted (fst (run mount [Render (Sample.input 1) Sample.loading; Unmount]))
    = false /\
  step (Query:=string) (Variables:=unit) (Data:=Sample.Response) (SelectedData:=Z)
    (fst (run mount [Render (Sample.input 1) Sample.loading; Unmount])) (Elapse 0)
  = ({| retryCounts := 1;
        lastDeps := Some (Verdict true, StFetching);
        pending := [];
        mounted := false |},
     [Urql.ExecuteQuery
        {| Urql.requestPolicy := Some Urql.NetworkOnly; Urql.suspense := None |}]).
Proof.
  split; reflexivity.
Qed.

(** C5, amended. When the delay of a pending retry elapses and the counter has
    by then reached the [maxRetryCount] the retry captured, the callback does
    nothing: the counter stays and no client call is made.  Otherwise it adds
    one to the counter and calls the captured [refetch].  Unmounting cancels
    nothing: the callback does the same on the unmounted instance. *)
Theorem deferred_retry_guarded_by_budget (st : Instance) (i : nat) (d : Deferred) :
  nth_error (pending st) i = Some d ->
  (captured_maxRetryCount d <= retryCounts st ->
   retryCounts (fst (elapse i st)) = retryCounts st /\
   snd (elapse i st) = []) /\
  (retryCounts st < captured_maxRetryCount d ->
   retryCounts (fst (elapse i st)) = retryCounts st + 1 /\
   snd (elapse i st) = captured_refetch d) /\
  retryCounts (fst (elapse i (unmount st))) = retryCounts (fst (elapse i st)) /\
  snd (elapse i (unmount st)) = snd (elapse i st).
Proof.
  intro Hd. unfold elapse, unmount. simpl. rewrite Hd. unfold retryCallback.
  destruct (Z.geb_spec (retryCounts st) (captured_maxRetryCount d)) as [Hge|Hlt];
    simpl; repeat split; try reflexivity; intros; lia.
Qed.

(** Of two retries pending with a budget of 1, the first to fire takes the
    counter from 0 to 1 and refetches; the second then does nothing. *)
Lemma deferred_retry_guarded_by_budget_witness :
  (retryCounts (fst (elapse 0 Sample.two_pending)) = 1 /\
   snd (elapse 0 Sample.two_pending)
   = [Urql.ExecuteQuery
        {| Urql.requestPolicy := Some Urql.NetworkOnly; Urql.suspense := None |}]) /\
  (retryCounts (fst (elapse 0 Sample.one_fired)) = 1 /\
   snd (elapse 0 Sample.one_fired) = []).
Proof.
  split.
  - refine (proj1 (proj2 (deferred_retry_guarded_by_budget
                     Sample.two_pending 0 _ eq_refl)) _).
    simpl. lia.
  - refine (proj1 (deferred_retry_guarded_by_budget
                     Sample.one_fired 0 _ eq_refl) _).
    simpl. lia.
Defined.

(** * Further properties of the classifier *)

Section ClassifierMore.
Context {Query Variables Data SelectedData : Type}.
Variable client : Urql.UseQueryArgs Query Variables -> Urql.UseQueryState Data.
Variable props : UseAppQueryProps Query Variables Data SelectedData.

(** A success result can only come out of the last branch. *)
Lemma useAppQuery_success_inv (r : UseAppQueryReturn (QueryResult SelectedData) Data)
  (v : SelectedData) :
  useAppQuery client props = Js.Normal r ->
  result r = SuccessResult v ->
  Js.to_boolean (paused props) = false /\
  Urql.fetching (client (useQueryArgs props)) = false /\
  Urql.error (client (useQueryArgs props)) = None /\
  exists d,
    Urql.data (client (useQueryArgs props)) = Some d /\
    UseQuery.selector props d = Js.Normal v.
Proof.
  unfold useAppQuery.
  destruct (Js.to_boolean (paused props)).
  { intros [= <-]; discriminate. }
  destruct (Urql.fetching (client (useQueryArgs props))).
  { intros [= <-]; discriminate. }
  destruct (Urql.error (client (useQueryArgs props))).
  { intros [= <-]; discriminate. }
  destruct (Urql.data (client (useQueryArgs props))) as [d|].
  2:{ intros [= <-]; discriminate. }
  destruct (UseQuery.selector props d) as [w|thrown] eqn:Hs; simpl.
  - intros [= <-] [= <-]. repeat split. exists d. split; [ reflexivity | exact Hs ].
  - unfold selector_failed.
    destruct (Js.instanceof_Error thrown); intros [= <-]; discriminate.
Qed.

(** A paused classifier reports the paused status. *)
Lemma useAppQuery_paused (r : UseAppQueryReturn (QueryResult SelectedData) Data) :
  Js.to_boolean (paused props) = true ->
  useAppQuery client props = Js.Normal r ->
  result r = PausedResult.
Proof.
  intros Hp. unfold useAppQuery. rewrite Hp. intros [= <-]. reflexivity.
Qed.

(** X1. The classifier reports success with [v] exactly when the caller did
    not pause, the client is neither fetching nor reporting an error, data is
    there and the selector returned [v] on it.  So a client state that holds
    both an error and data never reads as a success. *)
Theorem success_iff_selector_returned (v : SelectedData) :
  (exists r, useAppQuery client props = Js.Normal r /\ result r = SuccessResult v) <->
  (paused props <> Some true /\
   Urql.fetching (client (useQueryArgs props)) = false /\
   Urql.error (client (useQueryArgs props)) = None /\
   exists d,
     Urql.data (client (useQueryArgs props)) = Some d /\
     UseQuery.selector props d = Js.Normal v).
Proof.
  split.
  - intros (r & Hr & Hv).
    destruct (useAppQuery_success_inv r v Hr Hv) as (Hp & Hf & He & Hd).
    apply to_boolean_false in Hp. repeat split; assumption.
  - intros (Hp & Hf & He & d & Hd & Hs). apply to_boolean_false in Hp.
    eexists. split.
    + apply (useAppQuery_selects client props d Hp Hf He Hd).
    + rewrite Hs. reflexivity.
Qed.

(** X2. When the caller paused, or the client is fetching, reports an error
    or has no data, the selector is not consulted: the hook returns the same
    with any other selector in its place. *)
Theorem selector_not_consulted (other : Data -> Js.Completion SelectedData) :
  paused props = Some true \/
  Urql.fetching (client (useQueryArgs props)) = true \/
  Urql.error (client (useQueryArgs props)) <> None \/
  Urql.data (client (useQueryArgs props)) = None ->
  useAppQuery client (Trace.with_selector props other) = useAppQuery client props.
Proof.
  intro H. unfold useAppQuery.
  change (useQueryArgs (Trace.with_selector props other)) with (useQueryArgs props).
  change (paused (Trace.with_selector props other)) with (paused props).
  destruct (Js.to_boolean (paused props)) eqn:Hp; [ reflexivity | ].
  destruct (Urql.fetching (client (useQueryArgs props))); [ reflexivity | ].
  destruct (Urql.error (client (useQueryArgs props))); [ reflexivity | ].
  destruct (Urql.data (client (useQueryArgs props))); [ | reflexivity ].
  exfalso. destruct H as [H|[H|[H|H]]].
  - apply to_boolean_true in H. congruence.
  - discriminate H.
  - apply H. reflexivity.
  - discriminate H.
Qed.

End ClassifierMore.

(** A selector that always throws changes nothing while the fetch is under
    way. *)
Lemma selector_not_consulted_witness :
  useAppQuery Sample.loading
    (Trace.with_selector (Sample.props None)
       (fun _ => Js.Throw (Js.VString "never called")))
  = useAppQuery Sample.loading (Sample.props None).
Proof.
  apply (selector_not_consulted Sample.loading (Sample.props None)).
  right. left. reflexivity.
Defined.

(** * Further properties of the retry wrapper *)

Section WrapperMore.
Context {Query Variables Data SelectedData : Type}.
Variable client : Urql.UseQueryArgs Query Variables -> Urql.UseQueryState Data.
Variable input : UseRetryableQueryProps Query Variables Data SelectedData.

Lemma shouldPause_false (n : Z) :
  shouldPause input n = false <->
  pause input <> Some true /\ n < maxRetryCount input.
Proof.
  unfold shouldPause. rewrite orb_false_iff, to_boolean_false, Z.geb_leb, Z.leb_gt.
  reflexivity.
Qed.

(** X3. The retry wrapper hands out a success with [v] exactly when the
    counter is below [maxRetryCount], the caller did not pause, the client is
    neither fetching nor reporting an error, data is there, [retryIf] answers
    [false] on it and the selector returns [v] on it.  While [retryIf] asks for
    a retry or bails, selected data never reaches the caller. *)
Theorem wrapper_success_iff (n : Z) (v : SelectedData) :
  (exists r,
     useRetryableQuery client input n = Js.Normal r /\
     result (returned r) = Classified (SuccessResult v)) <->
  (n < maxRetryCount input /\
   pause input <> Some true /\
   Urql.fetching (client (useQueryArgs (appQueryProps input n))) = false /\
   Urql.error (client (useQueryArgs (appQueryProps input n))) = None /\
   exists d,
     Urql.data (client (useQueryArgs (appQueryProps input n))) = Some d /\
     retryIf input (Some d) = Verdict false /\
     UseRetryableQuery.selector input (Some d) = Js.Normal v).
Proof.
  destruct (useRetryableQuery_returns client input n)
    as (query & Hq & _ & Hraw & Hr).
  split.
  - intros (r & Hr' & Hv). rewrite Hr in Hr'. injection Hr' as <-.
    simpl in Hv. unfold overridden in Hv.
    destruct (Z.geb_spec n (maxRetryCount input)) as [Hge|Hlt];
      [ discriminate Hv | ].
    destruct (retryIf input (__rawValue query)) as [[|]|] eqn:Hverdict;
      try discriminate Hv.
    simpl in Hv. injection Hv as Hv.
    destruct (useAppQuery_success_inv client _ query v Hq Hv)
      as (Hp & Hf & He & d & Hd & Hs).
    simpl in Hp. apply shouldPause_false in Hp. destruct Hp as [Hp _].
    repeat split; try assumption.
    exists d. rewrite Hraw, Hd in Hverdict. repeat split; assumption.
  - intros (Hlt & Hp & Hf & He & d & Hd & Hverdict & Hs).
    eexists. split; [ exact Hr | ].
    assert (Hsel : useAppQuery client (appQueryProps input n)
                   = Js.Normal (resultWrapper (Some d) (SuccessResult v))).
    { rewrite (useAppQuery_selects client (appQueryProps input n) d);
        try assumption.
      - simpl. rewrite Hs. reflexivity.
      - simpl. apply shouldPause_false. split; assumption. }
    rewrite Hsel in Hq. injection Hq as <-.
    simpl. unfold overridden.
    destruct (Z.geb_spec n (maxRetryCount input)) as [Hge|_]; [ lia | ].
    simpl. rewrite Hverdict. reflexivity.
Qed.

(** X4. Rendering again with the same props and the same client state
    changes nothing: the effect's dependency array is as the first of the two
    renders left it, so no second retry is scheduled. *)
Theorem rerender_is_idempotent (st : Instance) :
  render input client (render input client st) = render input client st.
Proof.
  unfold render.
  destruct (useRetryableQuery client input (retryCounts st)) as [r|thrown] eqn:Hr.
  - simpl. rewrite Hr. simpl.
    assert (Hd : deps_eqb (deps r) (deps r) = true)
      by (apply deps_eqb_eq; reflexivity).
    rewrite Hd. simpl. rewrite app_nil_r. reflexivity.
  - rewrite Hr. reflexivity.
Qed.

(** X5. A render schedules no retry when the caller paused, or the counter has
    reached [maxRetryCount], or [retryIf] answers anything but [true] on the
    client's data ('bail' included). *)
Theorem nothing_scheduled_when (st : Instance) :
  pause input = Some true \/
  maxRetryCount input <= retryCounts st \/
  retryIf input
    (Urql.data (client (useQueryArgs (appQueryProps input (retryCounts st)))))
    <> Verdict true ->
  pending (render input client st) = pending st.
Proof.
  intro H.
  destruct (render_pending client input st) as (query & Hq & _ & _ & _ & Hp).
  destruct (useAppQuery_returns client (appQueryProps input (retryCounts st)))
    as (query' & Hq' & _ & Hraw).
  rewrite Hq in Hq'. injection Hq' as <-.
  rewrite Hp. rewrite <- app_nil_r. f_equal.
  assert (Hpaused : shouldPause input (retryCounts st) = true ->
                    status_eqb (status (result query)) StFetching = false).
  { intro Hs.
    rewrite (useAppQuery_paused client (appQueryProps input (retryCounts st))
               query Hs Hq).
    reflexivity. }
  destruct H as [H|[H|H]].
  - rewrite Hpaused; [ rewrite andb_false_r; reflexivity | ].
    unfold shouldPause. apply to_boolean_true in H. rewrite H. reflexivity.
  - rewrite Hpaused; [ rewrite andb_false_r; reflexivity | ].
    unfold shouldPause. apply orb_true_iff. right. apply Z.geb_le. exact H.
  - rewrite <- Hraw in H.
    destruct (verdict_eqb (retryIf input (__rawValue query)) (Verdict true)) eqn:Hv.
    + apply verdict_eqb_eq in Hv. contradiction.
    + rewrite andb_false_r. reflexivity.
Qed.

End WrapperMore.

(** A predicate that bails on the first observation: nothing is scheduled. *)
Lemma nothing_scheduled_when_witness :
  pending (render (Sample.bailing 3) Sample.loading mount) = [].
Proof.
  apply (nothing_scheduled_when Sample.loading (Sample.bailing 3) mount).
  right. right. simpl. discriminate.
Defined.

(** * Properties of whole runs of an instance *)

Lemma Forall_remove_nth {A : Type} (P : A -> Prop) (l : list A) :
  Forall P l -> forall i, Forall P (remove_nth i l).
Proof.
  induction 1 as [|a l Ha Hl IH]; intros [|i]; simpl; try constructor; auto.
Qed.

Lemma repeat_succ_diff {A : Type} (a : A) (lo mid hi : Z) :
  mid = lo + 1 -> mid <= hi ->
  a :: repeat a (Z.to_nat (hi - mid)) = repeat a (Z.to_nat (hi - lo)).
Proof.
  intros -> H. replace (hi - lo) with (Z.succ (hi - (lo + 1))) by lia.
  rewrite Z2Nat.inj_succ by lia. reflexivity.
Qed.

Section Runs.
Context {Query Variables Data SelectedData : Type}.

(** With the query paused, a render leaves the pending retries as they are. *)
Lemma render_paused_pending
  (client : Urql.UseQueryArgs Query Variables -> Urql.UseQueryState Data)
  (input : UseRetryableQueryProps Query Variables Data SelectedData)
  (st : Instance) :
  shouldPause input (retryCounts st) = true ->
  pending (render input client st) = pending st.
Proof.
  intro Hs.
  destruct (render_pending client input st) as (query & Hq & _ & _ & _ & Hp).
  rewrite Hp.
  rewrite (useAppQuery_paused client (appQueryProps input (retryCounts st))
             query Hs Hq).
  simpl. rewrite andb_false_r. simpl. apply app_nil_r.
Qed.

(** What one event does to the counter and to the client: nothing, or one
    more retry and one forced refetch; the pending retries keep calling the
    classifier's [refetch]. *)
Lemma step_accounting (st : Instance)
  (ev : @Event Query Variables Data SelectedData) :
  Forall (fun d => captured_refetch d = refetch_callback) (pending st) ->
  Forall (fun d => captured_refetch d = refetch_callback)
    (pending (fst (step st ev))) /\
  (retryCounts (fst (step st ev)) = retryCounts st /\ snd (step st ev) = [] \/
   retryCounts (fst (step st ev)) = retryCounts st + 1 /\
   snd (step st ev) = [Trace.forced_refetch]).
Proof.
  intro Hall. destruct ev as [input client|i|]; simpl.
  - destruct (mounted st); simpl; [ | split; [ exact Hall | left; split; reflexivity ] ].
    destruct (render_pending client input st) as (query & _ & _ & _ & Hn & Hp).
    split; [ | left; split; [ exact Hn | reflexivity ] ].
    rewrite Hp. clear Hp. apply Forall_app. split; [ exact Hall | ].
    match goal with |- Forall _ (if ?b then _ else _) => destruct b end;
      repeat constructor.
  - unfold elapse. destruct (nth_error (pending st) i) as [d|] eqn:Hd.
    2:{ split; [ exact Hall | left; split; reflexivity ]. }
    assert (Hr : captured_refetch d = refetch_callback).
    { apply nth_error_In in Hd. rewrite Forall_forall in Hall. apply Hall, Hd. }
    unfold retryCallback. destruct (retryCounts st >=? captured_maxRetryCount d);
      simpl; (split; [ apply Forall_remove_nth; exact Hall | ]).
    + left. split; reflexivity.
    + right. split; [ reflexivity | exact Hr ].
  - split; [ exact Hall | left; split; reflexivity ].
Qed.

Lemma run_accounting (evs : list (@Event Query Variables Data SelectedData)) :
  forall st,
    Forall (fun d => captured_refetch d = refetch_callback) (pending st) ->
    retryCounts st <= retryCounts (fst (run st evs)) /\
    snd (run st evs)
    = repeat Trace.forced_refetch
        (Z.to_nat (retryCounts (fst (run st evs)) - retryCounts st)).
Proof.
  induction evs as [|ev evs IH]; intros st Hall; simpl.
  - split; [ lia | ]. rewrite Z.sub_diag. reflexivity.
  - destruct (step_accounting st ev Hall) as (Hall1 & Hstep).
    destruct (step st ev) as [st1 calls1]; simpl in *.
    destruct (IH st1 Hall1) as (Hle & Hcalls).
    destruct (run st1 evs) as [st2 calls2]; simpl in *.
    destruct Hstep as [(Hn & ->)|(Hn & ->)]; simpl.
    + rewrite <- Hn. split; assumption.
    + split; [ lia | ]. rewrite Hcalls. apply repeat_succ_diff; assumption.
Qed.

(** The counter stays at or below [m], and so do the budgets the pending
    retries captured, as long as no render brings a budget above [m]. *)
Lemma step_budget (m : Z) (st : Instance)
  (ev : @Event Query Variables Data SelectedData) :
  retryCounts st <= m ->
  Forall (fun d => captured_maxRetryCount d <= m) (pending st) ->
  match ev with
  | Render i _ => maxRetryCount i <= m
  | _ => True
  end ->
  retryCounts (fst (step st ev)) <= m /\
  Forall (fun d => captured_maxRetryCount d <= m) (pending (fst (step st ev))).
Proof.
  intros Hn Hall Hev. destruct ev as [input client|i|]; simpl.
  - destruct (mounted st); simpl; [ | split; assumption ].
    destruct (render_pending client input st) as (query & _ & _ & _ & Hc & Hp).
    rewrite Hc, Hp. clear Hp. split; [ exact Hn | ].
    apply Forall_app. split; [ exact Hall | ].
    match goal with |- Forall _ (if ?b then _ else _) => destruct b end;
      repeat constructor. exact Hev.
  - unfold elapse. destruct (nth_error (pending st) i) as [d|] eqn:Hd.
    2:{ split; assumption. }
    assert (Hm : captured_maxRetryCount d <= m).
    { apply nth_error_In in Hd. rewrite Forall_forall in Hall. apply Hall, Hd. }
    unfold retryCallback.
    destruct (Z.geb_spec (retryCounts st) (captured_maxRetryCount d));
      simpl; (split; [ lia | apply Forall_remove_nth; exact Hall ]).
  - split; assumption.
Qed.

Lemma run_budget (m : Z) (evs : list (@Event Query Variables Data SelectedData)) :
  Trace.budgets_within m evs ->
  forall st,
    retryCounts st <= m ->
    Forall (fun d => captured_maxRetryCount d <= m) (pending st) ->
    retryCounts (fst (run st evs)) <= m.
Proof.
  induction 1 as [|ev evs Hev Hevs IH]; intros st Hn Hall; simpl; [ exact Hn | ].
  destruct (step_budget m st ev Hn Hall Hev) as (Hn1 & Hall1).
  destruct (step st ev) as [st1 calls1]; simpl in *.
  specialize (IH st1 Hn1 Hall1).
  destruct (run st1 evs) as [st2 calls2]; simpl in *. exact IH.
Qed.

End Runs.

(** X6. From mount on, whatever happens to the instance, the client calls
    the retries made are forced 'network-only' refetches, one for each unit of
    the counter: no retry is counted without its refetch, and no refetch is
    made without being counted. *)
Theorem one_forced_refetch_per_retry {Query Variables Data SelectedData : Type}
  (evs : list (@Event Query Variables Data SelectedData)) :
  snd (run mount evs)
  = repeat Trace.forced_refetch (Z.to_nat (retryCounts (fst (run mount evs)))).
Proof.
  destruct (run_accounting evs mount) as (_ & H); [ constructor | ].
  rewrite H. simpl. rewrite Z.sub_0_r. reflexivity.
Qed.

(** X7. If no render is given a [maxRetryCount] above [m], the counter never
    leaves the range from 0 to [m], and the retries make at most [m] refetches
    over the whole life of the instance. *)
Theorem retries_never_exceed_budget {Query Variables Data SelectedData : Type}
  (m : Z) (evs : list (@Event Query Variables Data SelectedData)) :
  0 <= m ->
  Trace.budgets_within m evs ->
  0 <= retryCounts (fst (run mount evs)) <= m /\
  (List.length (snd (run mount evs)) <= Z.to_nat m)%nat.
Proof.
  intros Hm Hevs.
  assert (Hlo : 0 <= retryCounts (fst (run mount evs))).
  { apply run_retryCounts_nonneg. simpl. lia. }
  assert (Hhi : retryCounts (fst (run mount evs)) <= m).
  { apply (run_budget m evs Hevs mount); [ exact Hm | constructor ]. }
  split; [ split; assumption | ].
  destruct (run_accounting evs mount) as (_ & H); [ constructor | ].
  rewrite H, repeat_length. simpl. lia.
Qed.

Lemma retries_never_exceed_budget_witness :
  0 <= retryCounts (fst (run mount Sample.busy_life)) <= 1 /\
  (List.length (snd (run mount Sample.busy_life)) <= 1)%nat.
Proof.
  refine (retries_never_exceed_budget 1 Sample.busy_life _ _).
  - lia.
  - repeat constructor; simpl; lia.
Defined.

Section RunsMore.
Context {Query Variables Data SelectedData : Type}.

(** The counter never goes down. *)
Lemma step_retryCounts_mono (st : Instance)
  (ev : @Event Query Variables Data SelectedData) :
  retryCounts st <= retryCounts (fst (step st ev)).
Proof.
  destruct ev as [input client|i|]; simpl.
  - destruct (mounted st); simpl; [ | lia ].
    destruct (render_pending client input st) as (query & _ & _ & _ & Hn & _).
    rewrite Hn. lia.
  - unfold elapse. destruct (nth_error (pending st) i) as [d|]; simpl; [ | lia ].
    pose proof (retryCallback_counts d (retryCounts st)) as Hc.
    destruct (retryCallback d (retryCounts st)) as [current calls]; simpl in *.
    lia.
  - lia.
Qed.

Lemma run_retryCounts_mono (evs : list (@Event Query Variables Data SelectedData)) :
  forall st, retryCounts st <= retryCounts (fst (run st evs)).
Proof.
  induction evs as [|ev evs IH]; intro st; simpl; [ lia | ].
  pose proof (step_retryCounts_mono st ev) as Hs.
  destruct (step st ev) as [st1 calls1]; simpl in Hs.
  specialize (IH st1).
  destruct (run st1 evs) as [st2 calls2]; simpl in *. lia.
Qed.


End RunsMore.

(** X9. On an instance reachable from mount, a retrying result carries the
    current value of the counter, and that value is at least 0 and below
    [maxRetryCount]. *)
Theorem retrying_count_within_budget {Query Variables Data SelectedData : Type}
  (evs : list (@Event Query Variables Data SelectedData))
  (client : Urql.UseQueryArgs Query Variables -> Urql.UseQueryState Data)
  (input : UseRetryableQueryProps Query Variables Data SelectedData)
  (r : Rendered Data SelectedData) (counts : Z) :
  useRetryableQuery client input (retryCounts (fst (run mount evs))) = Js.Normal r ->
  result (returned r) = RetryingResult counts ->
  counts = retryCounts (fst (run mount evs)) /\
  0 <= counts < maxRetryCount input.
Proof.
  intros Hr Hc.
  assert (Hn : 0 <= retryCounts (fst (run mount evs))).
  { apply run_retryCounts_nonneg. simpl. lia. }
  set (n := retryCounts (fst (run mount evs))) in *.
  destruct (useRetryableQuery_returns client input n) as (query & _ & _ & _ & Hr').
  rewrite Hr' in Hr. injection Hr as <-. simpl in Hc. unfold overridden in Hc.
  destruct (Z.geb_spec n (maxRetryCount input)) as [Hge|Hlt];
    [ discriminate Hc | ].
  destruct (retryIf input (__rawValue query)) as [[|]|]; try discriminate Hc.
  simpl in Hc. injection Hc as <-. split; [ reflexivity | lia ].
Qed.

Lemma retrying_count_within_budget_witness :
  1 = retryCounts (fst (run mount Sample.retried_once)) /\ 0 <= 1 < 3.
Proof.
  refine (retrying_count_within_budget Sample.retried_once Sample.refetching
            (Sample.input 3) _ 1 eq_refl eq_refl).
Defined.



(** * What the retry wrapper asks of the client *)

Section Consults.
Context {Query Variables Data SelectedData : Type}.

(** The classifier looks at the client at its one argument object only. *)
Lemma useAppQuery_client_ext
  (client client' : Urql.UseQueryArgs Query Variables -> Urql.UseQueryState Data)
  (props : UseAppQueryProps Query Variables Data SelectedData) :
  client' (useQueryArgs props) = client (useQueryArgs props) ->
  useAppQuery client' props = useAppQuery client props.
Proof.
  intro H. unfold useAppQuery. rewrite H. reflexivity.
Qed.

Lemma useRetryableQuery_client_ext
  (client client' : Urql.UseQueryArgs Query Variables -> Urql.UseQueryState Data)
  (input : UseRetryableQueryProps Query Variables Data SelectedData) (n : Z) :
  client' (useQueryArgs (appQueryProps input n))
    = client (useQueryArgs (appQueryProps input n)) ->
  useRetryableQuery client' input n = useRetryableQuery client input n.
Proof.
  intro H. unfold useRetryableQuery.
  rewrite (useAppQuery_client_ext client client' (appQueryProps input n) H).
  reflexivity.
Qed.

(** The override touches the result only. *)
Lemma overridden_keeps
  (input : UseRetryableQueryProps Query Variables Data SelectedData)
  (shouldRetry : RetryVerdict)
  (query : UseAppQueryReturn (QueryResult SelectedData) Data) (n : Z) :
  refetch (overridden input shouldRetry query n) = refetch query /\
  __rawValue (overridden input shouldRetry query n) = __rawValue query.
Proof.
  unfold overridden. destruct (n >=? maxRetryCount input);
    [ | destruct shouldRetry as [[|]|] ]; split; reflexivity.
Qed.

(** One call of the wrapper, seen from the client: the classifier is called
    once, it reads the client at one argument object, and what the wrapper
    returns is made from what the classifier returned. *)
Lemma useRetryableQuery_consults
  (client : Urql.UseQueryArgs Query Variables -> Urql.UseQueryState Data)
  (input : UseRetryableQueryProps Query Variables Data SelectedData) (n : Z) :
  exists query r,
    useAppQuery client (appQueryProps input n) = Js.Normal query /\
    useRetryableQuery client input n = Js.Normal r /\
    refetch (returned r) = refetch query /\
    __rawValue (returned r) = __rawValue query /\
    deps r = (retryIf input (__rawValue query), status (result query)) /\
    __rawValue (returned r)
      = Urql.data (client (useQueryArgs (appQueryProps input n))) /\
    (shouldPause input n = true -> snd (deps r) = StPaused) /\
    forall client',
      client' (useQueryArgs (appQueryProps input n))
        = client (useQueryArgs (appQueryProps input n)) ->
      useRetryableQuery client' input n = Js.Normal r.
Proof.
  destruct (useRetryableQuery_returns client input n)
    as (query & Hq & _ & Hraw & Hr).
  destruct (overridden_keeps input (retryIf input (__rawValue query)) query n)
    as (Hkf & Hkr).
  eexists query, _. split; [ exact Hq | ]. split; [ exact Hr | ]. simpl.
  split; [ exact Hkf | ]. split; [ exact Hkr | ]. split; [ reflexivity | ].
  split; [ rewrite Hkr; exact Hraw | ]. split.
  - intro Hs.
    rewrite (useAppQuery_paused client (appQueryProps input n) query Hs Hq).
    reflexivity.
  - intros client' H. rewrite (useRetryableQuery_client_ext client client' input n H).
    exact Hr.
Qed.

End Consults.

(** C6. On every render the retry wrapper consults the client once, at an
    argument object whose [pause] is a boolean that is [true] exactly when the
    caller passed [pause] as [true] or the counter has reached [maxRetryCount]:
    the raw value the wrapper returns is the data the client gives at these
    arguments, a paused status of the classifier comes with them, and a client
    that answers the same at these arguments gets the same outcome. *)
Theorem underlying_query_paused_iff {Query Variables Data SelectedData : Type}
  (input : UseRetryableQueryProps Query Variables Data SelectedData) (n : Z) :
  exists b : bool,
    (b = true <-> pause input = Some true \/ maxRetryCount input <= n) /\
    forall client : Urql.UseQueryArgs Query Variables -> Urql.UseQueryState Data,
    exists r,
      useRetryableQuery client input n = Js.Normal r /\
      __rawValue (returned r)
        = Urql.data
            (client
               {| Urql.query := UseRetryableQuery.query input;
                  Urql.variables := UseRetryableQuery.variables input;
                  Urql.pause := Some b;
                  Urql.context :=
                    {| Urql.requestPolicy := Some Urql.NetworkOnly;
                       Urql.suspense := Some false |} |}) /\
      (b = true -> snd (deps r) = StPaused) /\
      forall client' : Urql.UseQueryArgs Query Variables -> Urql.UseQueryState Data,
        client'
          {| Urql.query := UseRetryableQuery.query input;
             Urql.variables := UseRetryableQuery.variables input;
             Urql.pause := Some b;
             Urql.context :=
               {| Urql.requestPolicy := Some Urql.NetworkOnly;
                  Urql.suspense := Some false |} |}
        = client
            {| Urql.query := UseRetryableQuery.query input;
               Urql.variables := UseRetryableQuery.variables input;
               Urql.pause := Some b;
               Urql.context :=
                 {| Urql.requestPolicy := Some Urql.NetworkOnly;
                    Urql.suspense := Some false |} |} ->
        useRetryableQuery client' input n = Js.Normal r.
Proof.
  exists (shouldPause input n). split.
  - unfold shouldPause. rewrite orb_true_iff, to_boolean_true, Z.geb_le.
    reflexivity.
  - intro client.
    destruct (useRetryableQuery_consults client input n)
      as (query & r & _ & Hr & _ & _ & _ & Hraw & Hpaused & Hext).
    exists r. split; [ exact Hr | ]. split; [ exact Hraw | ].
    split; [ exact Hpaused | exact Hext ].
Qed.

(** C10. Whatever the input and the counter, the retry wrapper calls the
    classifier with props whose request policy is 'network-only', and through
    it consults the client at arguments whose context says 'network-only':
    what the wrapper returns is made from what the classifier returns on these
    props, and from what the client answers at these arguments.  The wrapper's
    props have no request policy field to change that. *)
Theorem retry_request_policy_fixed {Query Variables Data SelectedData : Type}
  (input : UseRetryableQueryProps Query Variables Data SelectedData) (n : Z) :
  exists (props : UseAppQueryProps Query Variables Data SelectedData)
         (args : Urql.UseQueryArgs Query Variables),
    requestPolicy props = Some Urql.NetworkOnly /\
    Urql.requestPolicy (Urql.context args) = Some Urql.NetworkOnly /\
    forall client : Urql.UseQueryArgs Query Variables -> Urql.UseQueryState Data,
    exists query r,
      useAppQuery client props = Js.Normal query /\
      useRetryableQuery client input n = Js.Normal r /\
      refetch (returned r) = refetch query /\
      __rawValue (returned r) = __rawValue query /\
      deps r = (retryIf input (__rawValue query), status (result query)) /\
      __rawValue (returned r) = Urql.data (client args) /\
      forall client' : Urql.UseQueryArgs Query Variables -> Urql.UseQueryState Data,
        client' args = client args ->
        useRetryableQuery client' input n = Js.Normal r.
Proof.
  exists (appQueryProps input n), (useQueryArgs (appQueryProps input n)).
  split; [ reflexivity | ]. split; [ reflexivity | ].
  intro client.
  destruct (useRetryableQuery_consults client input n)
    as (query & r & Hq & Hr & Hf & Hkr & Hdeps & Hraw & _ & Hext).
  exists query, r. repeat split; assumption.
Qed.

(** The argument object the client gets when the wrapper pauses. *)
Lemma useQueryArgs_paused {Query Variables Data SelectedData : Type}
  (input : UseRetryableQueryProps Query Variables Data SelectedData) (n : Z) :
  shouldPause input n = true ->
  useQueryArgs (appQueryProps input n)
  = {| Urql.query := UseRetryableQuery.query input;
       Urql.variables := UseRetryableQuery.variables input;
       Urql.pause := Some true;
       Urql.context :=
         {| Urql.requestPolicy := Some Urql.NetworkOnly;
            Urql.suspense := Some false |} |}.
Proof.
  intro Hs. unfold useQueryArgs, appQueryProps. simpl. rewrite Hs. reflexivity.
Qed.

(** With every budget at 0 or below, no retry ever fires a refetch. *)
Lemma no_budget_no_refetch {Query Variables Data SelectedData : Type}
  (evs : list (@Event Query Variables Data SelectedData)) :
  Trace.budgets_within 0 evs -> snd (run mount evs) = [].
Proof.
  intro Hevs.
  assert (Hlo : 0 <= retryCounts (fst (run mount evs))).
  { apply run_retryCounts_nonneg. simpl. lia. }
  assert (Hhi : retryCounts (fst (run mount evs)) <= 0).
  { apply (run_budget 0 evs Hevs mount); [ simpl; lia | constructor ]. }
  destruct (run_accounting evs mount) as (_ & H); [ constructor | ].
  rewrite H. simpl. rewrite Z.sub_0_r.
  replace (retryCounts (fst (run mount evs))) with 0 by lia. reflexivity.
Qed.

(** C7. With [maxRetryCount] equal to [0], on every render an instance can
    reach, whatever [retryIf] answers and whatever the client reports: the
    wrapper consults the client at arguments with [pause: true] and nowhere
    else, the classifier reports paused (not fetching), the wrapper returns the
    error result holding 'Max retry count exceeded', and the render schedules
    no retry.  If every render so far had a budget of 0, no retry has made a
    refetch either. *)
Theorem zero_budget_pauses_and_exceeds {Query Variables Data SelectedData : Type}
  (evs : list (@Event Query Variables Data SelectedData))
  (client : Urql.UseQueryArgs Query Variables -> Urql.UseQueryState Data)
  (input : UseRetryableQueryProps Query Variables Data SelectedData) :
  maxRetryCount input = 0 ->
  exists r,
    useRetryableQuery client input (retryCounts (fst (run mount evs))) = Js.Normal r /\
    __rawValue (returned r)
      = Urql.data
          (client
             {| Urql.query := UseRetryableQuery.query input;
                Urql.variables := UseRetryableQuery.variables input;
                Urql.pause := Some true;
                Urql.context :=
                  {| Urql.requestPolicy := Some Urql.NetworkOnly;
                     Urql.suspense := Some false |} |}) /\
    (forall client' : Urql.UseQueryArgs Query Variables -> Urql.UseQueryState Data,
       client'
         {| Urql.query := UseRetryableQuery.query input;
            Urql.variables := UseRetryableQuery.variables input;
            Urql.pause := Some true;
            Urql.context :=
              {| Urql.requestPolicy := Some Urql.NetworkOnly;
                 Urql.suspense := Some false |} |}
       = client
           {| Urql.query := UseRetryableQuery.query input;
              Urql.variables := UseRetryableQuery.variables input;
              Urql.pause := Some true;
              Urql.context :=
                {| Urql.requestPolicy := Some Urql.NetworkOnly;
                   Urql.suspense := Some false |} |} ->
       useRetryableQuery client' input (retryCounts (fst (run mount evs)))
         = Js.Normal r) /\
    snd (deps r) = StPaused /\
    result (returned r)
      = Classified (ErrorResult (Js.new_Error "Max retry count exceeded")) /\
    pending (render input client (fst (run mount evs)))
      = pending (fst (run mount evs)) /\
    (Trace.budgets_within 0 evs -> snd (run mount evs) = []).
Proof.
  intro Hmax.
  assert (Hn : 0 <= retryCounts (fst (run mount evs))).
  { apply run_retryCounts_nonneg. simpl. lia. }
  pose proof (@no_budget_no_refetch _ _ _ _ evs) as Hquiet.
  set (st := fst (run mount evs)) in *.
  assert (Hge : (retryCounts st >=? maxRetryCount input) = true).
  { apply Z.geb_le. lia. }
  assert (Hs : shouldPause input (retryCounts st) = true).
  { unfold shouldPause. rewrite Hge. apply orb_true_r. }
  destruct (useRetryableQuery_consults client input (retryCounts st))
    as (query & r & _ & Hr & _ & _ & _ & Hraw & Hpaused & Hext).
  rewrite (useQueryArgs_paused input (retryCounts st) Hs) in Hraw, Hext.
  exists r. split; [ exact Hr | ]. split; [ exact Hraw | ].
  split; [ exact Hext | ]. split; [ exact (Hpaused Hs) | ]. split.
  - destruct (useRetryableQuery_returns client input (retryCounts st))
      as (query' & _ & _ & _ & Hr').
    rewrite Hr' in Hr. injection Hr as <-. simpl. unfold overridden.
    rewrite Hge. reflexivity.
  - split; [ apply render_paused_pending; exact Hs | exact Hquiet ].
Qed.

(** An instance that never had a budget: its first render after an elapsed
    delay that had nothing to fire. *)
Lemma zero_budget_pauses_and_exceeds_witness :
  exists r,
    useRetryableQuery Sample.loading (Sample.input 0) 0 = Js.Normal r /\
    __rawValue (returned r) = None /\
    (forall client',
       client'
         {| Urql.query := UseRetryableQuery.query (Sample.input 0);
            Urql.variables := tt;
            Urql.pause := Some true;
            Urql.context :=
              {| Urql.requestPolicy := Some Urql.NetworkOnly;
                 Urql.suspense := Some false |} |}
       = Sample.idle ->
       useRetryableQuery client' (Sample.input 0) 0 = Js.Normal r) /\
    snd (deps r) = StPaused /\
    result (returned r)
      = Classified (ErrorResult (Js.new_Error "Max retry count exceeded")) /\
    pending
      (render (Sample.input 0) Sample.loading
         (fst (run mount [Render (Sample.input 0) Sample.loading; Elapse 0])))
      = [] /\
    (Trace.budgets_within 0 [Render (Sample.input 0) Sample.loading; Elapse 0] ->
     snd (run mount [Render (Sample.input 0) Sample.loading; Elapse 0]) = []).
Proof.
  exact (zero_budget_pauses_and_exceeds
           [Render (Sample.input 0) Sample.loading; Elapse 0]
           Sample.loading (Sample.input 0) eq_refl).
Defined.

(** X8. Once the counter has reached the [maxRetryCount] of some props, it
    stays there for good: after any further renders, elapsed delays or
    unmount, a render with these props still consults the client at arguments
    with [pause: true] and nowhere else, finds the classifier paused, returns
    the error 'Max retry count exceeded' and schedules no retry. *)
Theorem exhausted_budget_is_final {Query Variables Data SelectedData : Type}
  (client : Urql.UseQueryArgs Query Variables -> Urql.UseQueryState Data)
  (input : UseRetryableQueryProps Query Variables Data SelectedData)
  (st : Instance) (evs : list (@Event Query Variables Data SelectedData)) :
  maxRetryCount input <= retryCounts st ->
  exists r,
    useRetryableQuery client input (retryCounts (fst (run st evs))) = Js.Normal r /\
    __rawValue (returned r)
      = Urql.data
          (client
             {| Urql.query := UseRetryableQuery.query input;
                Urql.variables := UseRetryableQuery.variables input;
                Urql.pause := Some true;
                Urql.context :=
                  {| Urql.requestPolicy := Some Urql.NetworkOnly;
                     Urql.suspense := Some false |} |}) /\
    (forall client' : Urql.UseQueryArgs Query Variables -> Urql.UseQueryState Data,
       client'
         {| Urql.query := UseRetryableQuery.query input;
            Urql.variables := UseRetryableQuery.variables input;
            Urql.pause := Some true;
            Urql.context :=
              {| Urql.requestPolicy := Some Urql.NetworkOnly;
                 Urql.suspense := Some false |} |}
       = client
           {| Urql.query := UseRetryableQuery.query input;
              Urql.variables := UseRetryableQuery.variables input;
              Urql.pause := Some true;
              Urql.context :=
                {| Urql.requestPolicy := Some Urql.NetworkOnly;
                   Urql.suspense := Some false |} |} ->
       useRetryableQuery client' input (retryCounts (fst (run st evs)))
         = Js.Normal r) /\
    snd (deps r) = StPaused /\
    result (returned r)
      = Classified (ErrorResult (Js.new_Error "Max retry count exceeded")) /\
    pending (render input client (fst (run st evs))) = pending (fst (run st evs)).
Proof.
  intro Hmax.
  pose proof (run_retryCounts_mono evs st) as Hmono.
  set (st' := fst (run st evs)) in *.
  assert (Hge : (retryCounts st' >=? maxRetryCount input) = true).
  { apply Z.geb_le. lia. }
  assert (Hs : shouldPause input (retryCounts st') = true).
  { unfold shouldPause. rewrite Hge. apply orb_true_r. }
  destruct (useRetryableQuery_consults client input (retryCounts st'))
    as (query & r & _ & Hr & _ & _ & _ & Hraw & Hpaused & Hext).
  rewrite (useQueryArgs_paused input (retryCounts st') Hs) in Hraw, Hext.
  exists r. split; [ exact Hr | ]. split; [ exact Hraw | ].
  split; [ exact Hext | ]. split; [ exact (Hpaused Hs) | ]. split.
  - destruct (useRetryableQuery_returns client input (retryCounts st'))
      as (query' & _ & _ & _ & Hr').
    rewrite Hr' in Hr. injection Hr as <-. simpl. unfold overridden.
    rewrite Hge. reflexivity.
  - apply render_paused_pending. exact Hs.
Qed.

(** The budget of 1 is used up; the second pending retry fires in vain, the
    job's response arrives, and the render still reports the exhaustion. *)
Lemma exhausted_budget_is_final_witness :
  exists r,
    useRetryableQuery (Sample.settled [("count"%string, 5); ("ready"%string, 1)])
      (Sample.input 1) 1 = Js.Normal r /\
    __rawValue (returned r) = None /\
    (forall client',
       client'
         {| Urql.query := UseRetryableQuery.query (Sample.input 1);
            Urql.variables := tt;
            Urql.pause := Some true;
            Urql.context :=
              {| Urql.requestPolicy := Some Urql.NetworkOnly;
                 Urql.suspense := Some false |} |}
       = Sample.idle ->
       useRetryableQuery client' (Sample.input 1) 1 = Js.Normal r) /\
    snd (deps r) = StPaused /\
    result (returned r)
      = Classified (ErrorResult (Js.new_Error "Max retry count exceeded")) /\
    pending
      (render (Sample.input 1)
         (Sample.settled [("count"%string, 5); ("ready"%string, 1)])
         (fst (run Sample.one_fired
                 [Elapse 0;
                  Render (Sample.input 1)
                    (Sample.settled [("count"%string, 5); ("ready"%string, 1)])])))
    = [].
Proof.
  refine (exhausted_budget_is_final
            (Sample.settled [("count"%string, 5); ("ready"%string, 1)])
            (Sample.input 1) Sample.one_fired
            [Elapse 0;
             Render (Sample.input 1)
               (Sample.settled [("count"%string, 5); ("ready"%string, 1)])] _).
  simpl. lia.
Defined.
